(** * FHIR R4 API sketch ([src/fhir-api.ts]): controllers, validator, search
      parameter builder.

    The TypeScript file declares an abstract [FHIRResourceController<T>] with
    [create], [read], [search], [update] and [delete], a concrete
    [PatientController], the validator [validateResource] and the builder
    [createSearchParameters].  The file both imports the last two names and
    declares them locally (lines 129-143); the local declarations are the
    ones embedded here.

    Modelling choices.
    - Resources are JavaScript objects, passed and returned by reference.
      The heap is a list of objects, a reference is an index into it, and an
      object literal allocates at the end of the list.
    - The TypeScript interfaces are records.  Optional properties, and
      [resourceType] too, are [option]s: [{} as T] (line 26) and a request
      body are values of the interface type in which a required property is
      absent.
    - Every method is [async]; a promise is modelled by its settled outcome:
      [Normal] for fulfilled, [Throw] for rejected.  [await] of a rejected
      promise rethrows, which is the monad's bind.
    - Arrays returned by [search] and [getPatientHistory] are lists of
      references. *)

From stdpp Require Import base list strings.

Local Open Scope string_scope.

(** ** Interfaces (lines 109-127) *)

(** [meta?: { versionId?: string; lastUpdated?: string }] *)
Record Meta : Type := mkMeta {
  versionId : option string;
  lastUpdated : option string
}.

(** [interface FHIRResource]: what the generic code may read of a [T].
    [emptyObject] is the object literal [{}] seen at type [T]; none of the
    envelope properties is present on it. *)
Class FHIRResource (T : Type) : Type := {
  resourceType : T -> option string;
  id : T -> option string;
  meta : T -> option Meta;
  emptyObject : T;
  emptyObject_resourceType : resourceType emptyObject = None;
  emptyObject_id : id emptyObject = None;
  emptyObject_meta : meta emptyObject = None
}.

(** [gender?: 'male' | 'female' | 'other' | 'unknown'] *)
Inductive Gender : Type := male | female | other | unknown.

(** One entry of [name?: [{ given?: string[]; family?: string }]]. *)
Record HumanName : Type := mkHumanName {
  given : option (list string);
  family : option string
}.

(** [interface Patient extends FHIRResource].  [name] is a tuple type of
    exactly one entry, so the property holds one [HumanName] when present. *)
Module Patient.
Record t : Type := mk {
  resourceType : option string;
  id : option string;
  meta : option Meta;
  name : option HumanName;
  birthDate : option string;
  gender : option Gender
}.

(** [{}]: no property is present. *)
Definition empty : t := mk None None None None None None.
End Patient.

#[export] Instance Patient_FHIRResource : FHIRResource Patient.t := {|
  resourceType := Patient.resourceType;
  id := Patient.id;
  meta := Patient.meta;
  emptyObject := Patient.empty;
  emptyObject_resourceType := eq_refl;
  emptyObject_id := eq_refl;
  emptyObject_meta := eq_refl
|}.

(** ** JavaScript values and effects *)

(** [new Error(message)] *)
Inductive JSError : Type := Error (message : string).

(** Truthiness of an optional string property: [undefined] and the empty
    string are falsy, every other string is truthy. *)
Definition truthy (v : option string) : bool :=
  match v with
  | None => false
  | Some EmptyString => false
  | Some (String _ _) => true
  end.

(** A reference to an object. *)
Definition loc : Type := nat.

(** [protected resourceType: string], the only field of a controller. *)
Record Controller : Type := mkController {
  controller_resourceType : string
}.

(** Everything a method could touch: the objects and the controller
    instance the method is called on. *)
Record World (T : Type) : Type := mkWorld {
  heap : list T;
  this : Controller
}.
Arguments mkWorld {T} _ _.
Arguments heap {T} _.
Arguments this {T} _.

(** How a call ends. *)
Inductive Completion (A : Type) : Type :=
| Normal (a : A)
| Throw (e : JSError).
Arguments Normal {A} _.
Arguments Throw {A} _.

(** A computation over the world.  [None] only arises from a reference that
    points outside the heap, which no JavaScript program can hold. *)
Definition M (T A : Type) : Type := World T -> option (Completion A * World T).

Section Effects.
Context {T : Type}.

Definition ret {A} (a : A) : M T A := fun w => Some (Normal a, w).

Definition throw {A} (e : JSError) : M T A := fun w => Some (Throw e, w).

Definition bind {A B} (m : M T A) (k : A -> M T B) : M T B := fun w =>
  match m w with
  | Some (Normal a, w') => k a w'
  | Some (Throw e, w') => Some (Throw e, w')
  | None => None
  end.

(** Reading the object behind a reference. *)
Definition deref (l : loc) : M T T := fun w =>
  match heap w !! l with
  | Some o => Some (Normal o, w)
  | None => None
  end.

(** An object literal: a new object with a new reference. *)
Definition alloc (o : T) : M T loc := fun w =>
  Some (Normal (length (heap w)), mkWorld (heap w ++ [o]) (this w)).
End Effects.

(** The call fails: its promise is rejected. *)
Definition throws {T A} (m : M T A) (w : World T) : Prop :=
  exists e w', m w = Some (Throw e, w').

#[export] Instance M_ret {T} : MRet (M T) := @ret T.
#[export] Instance M_bind {T} : MBind (M T) := fun A B k m => bind m k.

(** ** Validator implementation (lines 129-135) *)

Section Validator.
Context {T : Type} `{FHIRResource T}.

Definition validateResource (resource : loc) : M T unit :=
  r ← deref resource;
  if negb (truthy (resourceType r))
  then throw (Error "Resource type is required")
  else mret ().
End Validator.

(** ** Search parameter builder (lines 137-143) *)

(** One element of the array the builder returns: [{ name: key, value: value }]. *)
Record SearchParameter : Type := mkSearchParameter {
  name : string;
  value : string
}.

(** [params: Record<string, string>] is given by its entries in property
    order, which is what [Object.entries] enumerates. *)
Definition createSearchParameters (params : list (string * string))
  : list SearchParameter :=
  map (fun '(key, value) => mkSearchParameter key value) params.

(** ** Base FHIR resource controller (lines 11-47) *)

Module FHIRResourceController.
Section Methods.
Context {T : Type} `{FHIRResource T}.

(** Create a new resource. *)
Definition create (resource : loc) : M T loc :=
  validateResource resource ;;
  mret resource.

(** Read a resource by ID: [return {} as T]. *)
Definition read (id : string) : M T loc :=
  alloc emptyObject.

(** Search for resources. *)
Definition search (params : list (string * string)) : M T (list loc) :=
  let searchParams := createSearchParameters params in
  mret [].

(** Update a resource. *)
Definition update (id : string) (resource : loc) : M T loc :=
  validateResource resource ;;
  mret resource.

(** Delete a resource: the body is empty. *)
Definition delete (id : string) : M T unit :=
  mret ().
End Methods.
End FHIRResourceController.

(** ** Patient resource controller (lines 49-63) *)

Module PatientController.
(** [protected resourceType = 'Patient'] *)
Definition new : Controller := mkController "Patient".

Definition create : loc -> M Patient.t loc := FHIRResourceController.create.
Definition read : string -> M Patient.t loc := FHIRResourceController.read.
Definition search : list (string * string) -> M Patient.t (list loc) :=
  FHIRResourceController.search.
Definition update : string -> loc -> M Patient.t loc :=
  FHIRResourceController.update.
Definition delete : string -> M Patient.t unit := FHIRResourceController.delete.

(** Patient-specific search parameters: [this.search({ name })]. *)
Definition searchByName (name : string) : M Patient.t (list loc) :=
  search [("name", name)].

(** Additional patient-specific methods. *)
Definition getPatientHistory (id : string) : M Patient.t (list loc) :=
  mret [].
End PatientController.

(** ** Routes setup (lines 65-87) *)

(** What the two handlers read of [req]: [req.body], the object parsed from
    the request, and [req.params.id], the path segment.  The body is a
    reference into the heap, so it is an object of the resource interface;
    a request without a body, or with a [resourceType] that is not a string,
    is outside what is modelled. *)
Record Request : Type := mkRequest {
  body : loc;
  params_id : string
}.

(** What [res.json] is given: a resource object, serialised as it is at that
    moment, or the literal [{ error: ... }]. *)
Inductive Json (T : Type) : Type :=
| JsonResource (resource : T)
| JsonError (error : string).
Arguments JsonResource {T} _.
Arguments JsonError {T} _.

(** What a handler leaves on [res]: the status code and the body sent. *)
Record Response (T : Type) : Type := mkResponse {
  statusCode : nat;
  sent : option (Json T)
}.
Arguments mkResponse {T} _ _.
Arguments statusCode {T} _.
Arguments sent {T} _.

(** [res] as a handler receives it: status 200, nothing sent. *)
Definition res {T} : Response T := mkResponse 200 None.

(** [res.status(code)] *)
Definition status {T} (code : nat) (r : Response T) : Response T :=
  mkResponse code (sent r).

(** [res.json(resource)]: the object behind the reference is what goes out. *)
Definition json_resource {T} (resource : loc) (r : Response T)
  : M T (Response T) :=
  o ← deref resource;
  mret (mkResponse (statusCode r) (Some (JsonResource o))).

(** [res.json({ error: text })] *)
Definition json_error {T} (text : string) (r : Response T)
  : M T (Response T) :=
  mret (mkResponse (statusCode r) (Some (JsonError text))).

(** [error.message] *)
Definition message (e : JSError) : string :=
  match e with Error text => text end.

(** [new C()]: the instance the calls that follow are made on. *)
Definition construct {T} (c : Controller) : M T unit := fun w =>
  Some (Normal (), mkWorld (heap w) c).

(** [try { block } catch (error) { handler }] *)
Definition try_catch {T A} (block : M T A) (handler : JSError -> M T A)
  : M T A := fun w =>
  match block w with
  | Some (Throw e, w') => handler e w'
  | outcome => outcome
  end.

(** [router.post('/Patient', ...)] *)
Definition post_Patient (req : Request) : M Patient.t (Response Patient.t) :=
  construct PatientController.new ;;
  try_catch
    (patient ← PatientController.create (body req);
     json_resource patient (status 201 res))
    (fun error => json_error (message error) (status 400 res)).

(** [router.get('/Patient/:id', ...)] *)
Definition get_Patient_id (req : Request) : M Patient.t (Response Patient.t) :=
  construct PatientController.new ;;
  try_catch
    (patient ← PatientController.read (params_id req);
     json_resource patient res)
    (fun error => json_error "Patient not found" (status 404 res)).

(** The world a handler works in: the objects as they are, and the
    controller the handler has made for itself. *)
Definition serving (w : World Patient.t) : World Patient.t :=
  mkWorld (heap w) PatientController.new.

(** ** Frame condition *)

(** [m] leaves every resource object that exists where it is and as it is
    (the heap can only grow at its end), and leaves the controller it is
    called on as it is. *)
Definition keeps_world {T A} (m : M T A) : Prop :=
  forall w c w',
    m w = Some (c, w') -> heap w `prefix_of` heap w' /\ this w' = this w.

(** ** Concrete requests used below *)

(** [{ resourceType: 'Patient', name: [{ given: ['Jane'], family: 'Smith' }],
      gender: 'female' }] *)
Definition jane : Patient.t :=
  Patient.mk (Some "Patient") None None
             (Some (mkHumanName (Some ["Jane"]) (Some "Smith"))) None (Some female).

(** The same patient with [id: 'p1'] and [meta: { versionId: v }]. *)
Definition jane_at (v : string) : Patient.t :=
  Patient.mk (Some "Patient") (Some "p1") (Some (mkMeta (Some v) None))
             (Some (mkHumanName (Some ["Jane"]) (Some "Smith"))) None (Some female).

(** [{ resourceType: 'NotAResource' }] *)
Definition not_a_resource : Patient.t :=
  Patient.mk (Some "NotAResource") None None None None None.

(** [{ resourceType: '' }] *)
Definition blank_type : Patient.t :=
  Patient.mk (Some "") None None None None None.

(** The resource kinds the source names (line 5 and the [Patient]
    interface). *)
Definition named_kinds : list string := ["Patient"; "Observation"].

(** The one search parameter the source names ([searchByName]). *)
Definition named_parameters : list string := ["name"].

(** A world holding the given objects and a fresh [PatientController]. *)
Definition world_of (objects : list Patient.t) : World Patient.t :=
  mkWorld objects PatientController.new.

(** The world after one more object literal has been evaluated. *)
Definition extend {T} (w : World T) (o : T) : World T :=
  mkWorld (heap w ++ [o]) (this w).


(** * Properties *)

(** ** How the calls run *)

Section Runs.
Context {T : Type} `{FHIRResource T}.
Implicit Types (w : World T) (l : loc) (r : T).

Lemma deref_run w l r :
  heap w !! l = Some r -> deref l w = Some (Normal r, w).
Proof. intros Hl. unfold deref. now rewrite Hl. Qed.

Lemma bind_normal {A B} (m : M T A) (k : A -> M T B) w a w' :
  m w = Some (Normal a, w') -> (m ≫= k) w = k a w'.
Proof. intros Hm. unfold mbind, M_bind, bind. now rewrite Hm. Qed.

Lemma bind_throw {A B} (m : M T A) (k : A -> M T B) w e w' :
  m w = Some (Throw e, w') -> (m ≫= k) w = Some (Throw e, w').
Proof. intros Hm. unfold mbind, M_bind, bind. now rewrite Hm. Qed.

(** The validator reads one property and decides on its truthiness. *)
Lemma validateResource_run w l r :
  heap w !! l = Some r ->
  validateResource l w =
    Some (if truthy (resourceType r) then Normal ()
          else Throw (Error "Resource type is required"), w).
Proof.
  intros Hl. unfold validateResource.
  rewrite (bind_normal _ _ _ _ _ (deref_run _ _ _ Hl)).
  now destruct (truthy (resourceType r)).
Qed.

(** The shared body of [create] and [update]. *)
Lemma validate_then_return_run w l r :
  heap w !! l = Some r ->
  (validateResource l ;; mret l) w =
    Some (if truthy (resourceType r) then Normal l
          else Throw (Error "Resource type is required"), w).
Proof.
  intros Hl. pose proof (validateResource_run w l r Hl) as Hv.
  destruct (truthy (resourceType r)).
  - now rewrite (bind_normal _ _ _ _ _ Hv).
  - now rewrite (bind_throw _ _ _ _ _ Hv).
Qed.

(** A call that returns normally does not fail. *)
Lemma normal_not_throws {A} (m : M T A) w (a : A) w' :
  m w = Some (Normal a, w') -> ~ throws m w.
Proof. intros Hm (e & w'' & He). rewrite Hm in He. discriminate. Qed.

Lemma read_run (i : string) w :
  FHIRResourceController.read i w =
    Some (Normal (length (heap w)), extend w emptyObject).
Proof. reflexivity. Qed.

(** The reference an object literal yields points at that object. *)
Lemma extend_lookup w (o : T) :
  heap (extend w o) !! length (heap w) = Some o.
Proof. unfold extend; simpl. now rewrite list_lookup_middle. Qed.

(** Objects already there stay where they are. *)
Lemma extend_lookup_old w (o : T) l r :
  heap w !! l = Some r -> heap (extend w o) !! l = Some r.
Proof. intros Hl. unfold extend; simpl. now apply lookup_app_l_Some. Qed.

Lemma truthy_spec (v : option string) :
  truthy v = true <-> exists s, v = Some s /\ s <> "".
Proof.
  split.
  - destruct v as [[|c s]|]; simpl; try discriminate.
    intros _. exists (String c s). now split.
  - intros (s & -> & Hs). destruct s; [contradiction | reflexivity].
Qed.

Lemma falsy_spec (v : option string) :
  truthy v = false <-> v = None \/ v = Some "".
Proof.
  split.
  - destruct v as [[|c s]|]; simpl; try discriminate; auto.
  - now intros [-> | ->].
Qed.
End Runs.

(** ** The validator *)

(** C4, as the code has it: [validateResource] throws, with the message
    "Resource type is required", exactly when [resourceType] is absent or
    the empty string, and it returns normally exactly when [resourceType]
    is a non-empty string, whatever that string is.  No set of recognized
    kinds is consulted. *)
Theorem validateResource_throws_iff_falsy
  {T : Type} `{FHIRResource T} (w : World T) (l : loc) (r : T) :
  heap w !! l = Some r ->
  (validateResource l w = Some (Throw (Error "Resource type is required"), w)
     <-> resourceType r = None \/ resourceType r = Some "")
  /\ (validateResource l w = Some (Normal (), w)
     <-> exists s, resourceType r = Some s /\ s <> "").
Proof.
  intros Hl. rewrite (validateResource_run w l r Hl).
  rewrite <- falsy_spec, <- truthy_spec.
  destruct (truthy (resourceType r)); split; split;
    auto; try discriminate; intros Heq; inversion Heq.
Qed.

Lemma validateResource_throws_iff_falsy_witness :
  heap (world_of [not_a_resource]) !! 0 = Some not_a_resource
  /\ (validateResource 0 (world_of [not_a_resource])
        = Some (Normal (), world_of [not_a_resource])
      <-> exists s, Patient.resourceType not_a_resource = Some s /\ s <> "").
Proof.
  split; [reflexivity |].
  exact (proj2 (validateResource_throws_iff_falsy
                  (world_of [not_a_resource]) 0 not_a_resource eq_refl)).
Defined.

(** C4 as stated fails: a resource whose [resourceType] is none of the kinds
    the source names passes validation. *)
Lemma validateResource_accepts_unrecognized_kind :
  Patient.resourceType not_a_resource = Some "NotAResource"
  /\ ("NotAResource" ∉ named_kinds)
  /\ validateResource 0 (world_of [not_a_resource])
       = Some (Normal (), world_of [not_a_resource])
  /\ ~ throws (validateResource 0) (world_of [not_a_resource]).
Proof.
  split; [reflexivity | split; [| split; [reflexivity |]]].
  - unfold named_kinds. intros Hin.
    repeat (apply elem_of_cons in Hin as [Hin | Hin]; [discriminate |]).
    now apply elem_of_nil in Hin.
  - now apply (normal_not_throws _ _ () (world_of [not_a_resource])).
Qed.

(** C7: validation leaves the world as it found it, the candidate included,
    whether it returns or throws. *)
Theorem validateResource_changes_nothing
  {T : Type} `{FHIRResource T} (w : World T) (l : loc) (r : T) :
  heap w !! l = Some r ->
  exists c : Completion unit,
    validateResource l w = Some (c, w)
    /\ (c = Normal () \/ c = Throw (Error "Resource type is required")).
Proof.
  intros Hl. rewrite (validateResource_run w l r Hl).
  destruct (truthy (resourceType r)); eauto.
Qed.

Lemma validateResource_changes_nothing_witness :
  heap (world_of [jane; blank_type]) !! 1 = Some blank_type
  /\ exists c : Completion unit,
       validateResource 1 (world_of [jane; blank_type])
         = Some (c, world_of [jane; blank_type])
       /\ (c = Normal () \/ c = Throw (Error "Resource type is required")).
Proof.
  split; [reflexivity |].
  exact (validateResource_changes_nothing
           (world_of [jane; blank_type]) 1 blank_type eq_refl).
Defined.

(** ** create *)

(** C1, as the code has it: [create] fails exactly when validation fails,
    whether or not [id] is set; otherwise it returns the very object it was
    given and changes nothing: no [id], [versionId] or [lastUpdated] is
    assigned and nothing is stored. *)
Theorem create_validates_and_returns_input
  {T : Type} `{FHIRResource T} (w : World T) (l : loc) (r : T) :
  heap w !! l = Some r ->
  FHIRResourceController.create l w =
    Some (if truthy (resourceType r) then Normal l
          else Throw (Error "Resource type is required"), w).
Proof. apply validate_then_return_run. Qed.

Lemma create_validates_and_returns_input_witness :
  heap (world_of [jane]) !! 0 = Some jane
  /\ PatientController.create 0 (world_of [jane])
       = Some (Normal 0, world_of [jane]).
Proof.
  split; [reflexivity |].
  exact (create_validates_and_returns_input (world_of [jane]) 0 jane eq_refl).
Defined.

(** C1 as stated fails on both counts: a resource that already has an [id]
    is accepted, and a resource without one comes back without [id] and
    without [meta]. *)
Lemma create_accepts_id_and_assigns_none :
  Patient.id (jane_at "1") = Some "p1"
  /\ PatientController.create 0 (world_of [jane_at "1"])
       = Some (Normal 0, world_of [jane_at "1"])
  /\ ~ throws (PatientController.create 0) (world_of [jane_at "1"])
  /\ Patient.id jane = None
  /\ (created ← PatientController.create 0; deref created) (world_of [jane])
       = Some (Normal jane, world_of [jane])
  /\ Patient.meta jane = None.
Proof.
  split; [reflexivity | split; [reflexivity | split]].
  - now apply (normal_not_throws _ _ 0 (world_of [jane_at "1"])).
  - repeat split.
Qed.

(** ** update *)

(** C2, as the code has it: [update] takes no concurrency token and looks
    nothing up.  For every [id] it fails exactly when validation of the
    given resource fails, and otherwise returns that object unchanged, its
    [meta.versionId] as supplied. *)
Theorem update_validates_and_returns_input
  {T : Type} `{FHIRResource T} (w : World T) (i : string) (l : loc) (r : T) :
  heap w !! l = Some r ->
  FHIRResourceController.update i l w =
    Some (if truthy (resourceType r) then Normal l
          else Throw (Error "Resource type is required"), w).
Proof. apply validate_then_return_run. Qed.

Lemma update_validates_and_returns_input_witness :
  heap (world_of [jane_at "2"]) !! 0 = Some (jane_at "2")
  /\ PatientController.update "p1" 0 (world_of [jane_at "2"])
       = Some (Normal 0, world_of [jane_at "2"]).
Proof.
  split; [reflexivity |].
  exact (update_validates_and_returns_input
           (world_of [jane_at "2"]) "p1" 0 (jane_at "2") eq_refl).
Defined.

(** C2 as stated fails: [update] succeeds for an id nothing was created
    under; after a resource with [versionId] 2 went through [create], an
    update carrying [versionId] 1 succeeds; and an update carrying
    [versionId] 2 leaves it at 2. *)
Lemma update_never_conflicts_never_bumps :
  ~ throws (PatientController.update "p1" 0) (world_of [jane])
  /\ ~ throws (PatientController.create 0 ;; PatientController.update "p1" 1)
        (world_of [jane_at "2"; jane_at "1"])
  /\ (PatientController.create 0 ;;
      (updated ← PatientController.update "p1" 0;
       o ← deref updated;
       mret (Patient.meta o ≫= versionId)))
       (world_of [jane_at "2"])
     = Some (Normal (Some "2"), world_of [jane_at "2"]).
Proof.
  split; [| split; [| reflexivity]].
  - now apply (normal_not_throws _ _ 0 (world_of [jane])).
  - now apply (normal_not_throws _ _ 1 (world_of [jane_at "2"; jane_at "1"])).
Qed.

(** ** read *)

(** C8: for every id and in every world, [PatientController.read] returns
    normally, and what it returns is a reference to a new object on which
    no property is present. *)
Theorem PatientController_read_returns_empty_object
  (i : string) (w : World Patient.t) :
  exists (found : loc) (w' : World Patient.t),
    PatientController.read i w = Some (Normal found, w')
    /\ heap w' !! found = Some (Patient.mk None None None None None None)
    /\ heap w !! found = None
    /\ forall l o, heap w !! l = Some o -> heap w' !! l = Some o.
Proof.
  exists (length (heap w)), (extend w Patient.empty).
  split; [reflexivity | split; [apply extend_lookup | split]].
  - now apply lookup_ge_None.
  - intros l o. apply extend_lookup_old.
Qed.

(** C6, as the code has it: after a successful [create], which returns the
    input object itself, [read] of any id returns a reference to a new empty
    object; nothing of the created resource is in it. *)
Theorem create_then_read_returns_empty_object
  {T : Type} `{FHIRResource T} (w : World T) (i : string) (l : loc) (r : T) :
  heap w !! l = Some r ->
  truthy (resourceType r) = true ->
  (created ← FHIRResourceController.create l;
   found ← FHIRResourceController.read i;
   o ← deref found;
   mret (created, found, o)) w
  = Some (Normal (l, length (heap w), emptyObject), extend w emptyObject).
Proof.
  intros Hl Hrt.
  pose proof (validate_then_return_run w l r Hl) as Hc. rewrite Hrt in Hc.
  rewrite (bind_normal _ _ _ _ _ Hc).
  rewrite (bind_normal _ _ _ _ _ (read_run i w)).
  now rewrite (bind_normal _ _ _ _ _ (deref_run _ _ _ (extend_lookup w emptyObject))).
Qed.

Lemma create_then_read_returns_empty_object_witness :
  heap (world_of [jane]) !! 0 = Some jane
  /\ truthy (Patient.resourceType jane) = true
  /\ (created ← PatientController.create 0;
      found ← PatientController.read "p1";
      o ← deref found;
      mret (created, found, o)) (world_of [jane])
     = Some (Normal (0, 1, Patient.empty), world_of [jane; Patient.empty]).
Proof.
  split; [reflexivity | split; [reflexivity |]].
  exact (create_then_read_returns_empty_object
           (world_of [jane]) "p1" 0 jane eq_refl eq_refl).
Defined.

(** C6 as stated fails: the object read back after creating Jane Smith has
    no [resourceType], no [name] and no [gender]. *)
Lemma create_then_read_loses_the_resource :
  (PatientController.create 0 ;;
   (found ← PatientController.read "p1"; deref found)) (world_of [jane])
  = Some (Normal Patient.empty, world_of [jane; Patient.empty])
  /\ Patient.resourceType Patient.empty <> Patient.resourceType jane
  /\ Patient.name Patient.empty <> Patient.name jane
  /\ Patient.gender Patient.empty <> Patient.gender jane.
Proof. repeat split; discriminate. Qed.

(** ** search and history *)

(** C9: [search] returns the empty list for every parameter map, and
    [getPatientHistory] returns the empty list for every id; neither touches
    the world. *)
Theorem search_and_history_return_empty
  (params : list (string * string)) (i : string) (w : World Patient.t) :
  PatientController.search params w = Some (Normal [], w)
  /\ PatientController.getPatientHistory i w = Some (Normal [], w).
Proof. split; reflexivity. Qed.

(** The builder keeps every entry, in order. *)
Lemma createSearchParameters_entries (params : list (string * string)) :
  map (fun p => (name p, value p)) (createSearchParameters params) = params.
Proof.
  unfold createSearchParameters.
  induction params as [| [key val] rest IH]; simpl; [reflexivity |].
  now rewrite IH.
Qed.

(** C5, as the code has it: the builder turns every entry of the map into
    the pair of its name and its value, whatever the name, in the order of
    the entries and with nothing added or left out; and [search] returns
    normally, with the empty list and the world as it was, for every
    parameter map. *)
Theorem search_accepts_every_parameter
  {T : Type} `{FHIRResource T} (params : list (string * string)) (w : World T) :
  map (fun p => (name p, value p)) (createSearchParameters params) = params
  /\ map name (createSearchParameters params) = map fst params
  /\ length (createSearchParameters params) = length params
  /\ FHIRResourceController.search params w = Some (Normal [], w)
  /\ ~ throws (FHIRResourceController.search params) w.
Proof.
  split; [| split; [| split; [| split]]].
  - apply createSearchParameters_entries.
  - rewrite <- (createSearchParameters_entries params) at 2.
    rewrite map_map. reflexivity.
  - unfold createSearchParameters. apply length_map.
  - reflexivity.
  - now apply (normal_not_throws _ _ [] w).
Qed.

(** C5 as stated fails: a parameter name the source never mentions goes
    through the builder and the search returns normally. *)
Lemma search_accepts_unknown_parameter :
  ("not-a-parameter" ∉ named_parameters)
  /\ createSearchParameters [("not-a-parameter", "x")]
       = [mkSearchParameter "not-a-parameter" "x"]
  /\ PatientController.search [("not-a-parameter", "x")] (world_of [])
       = Some (Normal [], world_of [])
  /\ ~ throws (PatientController.search [("not-a-parameter", "x")]) (world_of []).
Proof.
  split; [| split; [reflexivity | split; [reflexivity |]]].
  - unfold named_parameters. intros Hin.
    apply elem_of_cons in Hin as [Hin | Hin]; [discriminate |].
    now apply elem_of_nil in Hin.
  - now apply (normal_not_throws _ _ [] (world_of [])).
Qed.

(** ** delete *)

(** C10: [delete] returns normally for every id and leaves the world as it
    found it, so [read], [search] and [getPatientHistory] give after it what
    they give without it. *)
Theorem delete_succeeds_and_changes_nothing
  (i : string) (w : World Patient.t) :
  PatientController.delete i w = Some (Normal (), w)
  /\ forall (j : string) (params : list (string * string)),
       (PatientController.delete i ;; PatientController.read j) w
         = PatientController.read j w
       /\ (PatientController.delete i ;; PatientController.search params) w
         = PatientController.search params w
       /\ (PatientController.delete i ;; PatientController.getPatientHistory j) w
         = PatientController.getPatientHistory j w.
Proof. split; [reflexivity |]. intros j params. repeat split. Qed.

(** C3, as the code has it: [delete] returns normally for every id, also one
    nothing was created under; a [read] of that id afterwards returns
    normally, with a reference to a new empty object; and the history of
    that id is the empty list. *)
Theorem delete_then_read_returns_empty_object
  (i : string) (w : World Patient.t) :
  PatientController.delete i w = Some (Normal (), w)
  /\ (PatientController.delete i ;;
      (found ← PatientController.read i; o ← deref found; mret (found, o))) w
     = Some (Normal (length (heap w), Patient.empty), extend w Patient.empty)
  /\ (PatientController.delete i ;; PatientController.getPatientHistory i) w
     = Some (Normal [], w).
Proof.
  split; [reflexivity | split; [| reflexivity]].
  rewrite (bind_normal (PatientController.delete i) _ w () w eq_refl).
  rewrite (bind_normal (PatientController.read i) _ _ _ _ (read_run i w)).
  now rewrite (bind_normal _ _ _ _ _
                 (deref_run _ _ _ (extend_lookup w Patient.empty))).
Qed.

(** C3 as stated fails: [delete] of an id nothing was created under returns
    normally, and after create and delete of patient p1 the read of p1
    returns normally. *)
Lemma delete_absent_succeeds_read_after_delete_succeeds :
  ~ throws (PatientController.delete "p1") (world_of [])
  /\ (PatientController.create 0 ;;
      (PatientController.delete "p1" ;; PatientController.read "p1"))
       (world_of [jane_at "1"])
     = Some (Normal 1, world_of [jane_at "1"; Patient.empty])
  /\ ~ throws (PatientController.create 0 ;;
               (PatientController.delete "p1" ;; PatientController.read "p1"))
        (world_of [jane_at "1"]).
Proof.
  split; [| split; [reflexivity |]].
  - now apply (normal_not_throws _ _ () (world_of [])).
  - now apply (normal_not_throws _ _ 1 (world_of [jane_at "1"; Patient.empty])).
Qed.

(** ** The search parameter builder *)

Lemma createSearchParameters_names (params : list (string * string)) :
  map name (createSearchParameters params) = map fst params.
Proof.
  rewrite <- (createSearchParameters_entries params) at 2.
  now rewrite map_map.
Qed.

(** X1: Two parameter maps that differ, in an entry or in the order of their
    entries, never give the same parameter list. *)
Theorem createSearchParameters_injective (p q : list (string * string)) :
  createSearchParameters p = createSearchParameters q -> p = q.
Proof.
  intros Heq.
  rewrite <- (createSearchParameters_entries p).
  rewrite <- (createSearchParameters_entries q).
  now rewrite Heq.
Qed.

Lemma createSearchParameters_injective_witness :
  createSearchParameters [("name", "Smith")]
    = createSearchParameters [("name", "Smith")]
  /\ [("name", "Smith")] = [("name", "Smith")].
Proof.
  split; [reflexivity |].
  apply (createSearchParameters_injective
           [("name", "Smith")] [("name", "Smith")]).
  reflexivity.
Defined.

(** X2: A parameter is in the result exactly when the map has the entry it
    carries: the builder invents nothing and drops nothing. *)
Theorem createSearchParameters_elem
  (params : list (string * string)) (p : SearchParameter) :
  p ∈ createSearchParameters params <-> (name p, value p) ∈ params.
Proof.
  rewrite !list_elem_of_In. unfold createSearchParameters.
  rewrite in_map_iff. split.
  - intros ([key val] & <- & Hin). exact Hin.
  - intros Hin. exists (name p, value p). split; [now destruct p | exact Hin].
Qed.

(** X3: An object has each key once; then no name occurs twice among the
    parameters built from it. *)
Theorem createSearchParameters_names_NoDup (params : list (string * string)) :
  NoDup (map fst params) ->
  NoDup (map name (createSearchParameters params))
  /\ NoDup (createSearchParameters params).
Proof.
  intros Hnd. rewrite createSearchParameters_names. split; [exact Hnd |].
  apply (NoDup_fmap_1 name).
  change (NoDup (map name (createSearchParameters params))).
  now rewrite createSearchParameters_names.
Qed.

Lemma createSearchParameters_names_NoDup_witness :
  NoDup (map fst [("name", "Smith"); ("gender", "female")])
  /\ NoDup (map name (createSearchParameters
                        [("name", "Smith"); ("gender", "female")]))
  /\ NoDup (createSearchParameters [("name", "Smith"); ("gender", "female")]).
Proof.
  assert (Hkeys : NoDup (map fst [("name", "Smith"); ("gender", "female")])).
  { apply (bool_decide_unpack _). vm_compute. exact I. }
  split; [exact Hkeys |].
  exact (createSearchParameters_names_NoDup
           [("name", "Smith"); ("gender", "female")] Hkeys).
Defined.

(** ** How the controller's calls compose *)

Section Composition.
Context {T : Type} `{FHIRResource T}.
Implicit Types (w : World T) (l : loc) (r : T) (i j : string).

Lemma bind_none {A B} (m : M T A) (k : A -> M T B) w :
  m w = None -> (m ≫= k) w = None.
Proof. intros Hm. unfold mbind, M_bind, bind. now rewrite Hm. Qed.

Lemma validateResource_dangling w l :
  heap w !! l = None -> validateResource l w = None.
Proof.
  intros Hl. unfold validateResource. apply bind_none.
  unfold deref. now rewrite Hl.
Qed.

(** Validation looks at one object only, so a new object elsewhere does not
    change its verdict. *)
Lemma validateResource_extend w l r (o : T) :
  heap w !! l = Some r ->
  validateResource l (extend w o) =
    Some (if truthy (resourceType r) then Normal ()
          else Throw (Error "Resource type is required"), extend w o).
Proof.
  intros Hl. apply validateResource_run. now apply extend_lookup_old.
Qed.
End Composition.

(** X4: A second [create] of the same object, or an [update] of it under any
    id, adds nothing to the first [create]: the outcome and the world are
    those of the first call, also when that call throws.  [update] by itself
    is indistinguishable from [create]. *)
Theorem create_absorbs_create_and_update
  {T : Type} `{FHIRResource T} (w : World T) (i : string) (l : loc) :
  (FHIRResourceController.create l ;; FHIRResourceController.create l) w
    = FHIRResourceController.create l w
  /\ (FHIRResourceController.create l ;; FHIRResourceController.update i l) w
    = FHIRResourceController.create l w
  /\ FHIRResourceController.update i l w = FHIRResourceController.create l w.
Proof.
  assert (Hseq : forall m : M T loc,
             m = FHIRResourceController.create l ->
             (FHIRResourceController.create l ;; m) w
               = FHIRResourceController.create l w).
  { intros m ->. unfold FHIRResourceController.create.
    destruct (heap w !! l) as [r |] eqn:Hl.
    - pose proof (validate_then_return_run w l r Hl) as Hc.
      destruct (truthy (resourceType r)).
      + now rewrite (bind_normal _ _ _ _ _ Hc).
      + now rewrite (bind_throw _ _ _ _ _ Hc).
    - pose proof (bind_none (validateResource l) (fun _ => mret l) w
                    (validateResource_dangling w l Hl)) as Hc.
      rewrite Hc. now apply bind_none. }
  split; [| split]; [now apply Hseq | now apply Hseq | reflexivity].
Qed.

(** X5: Two reads, of the same id or of different ids, return two different
    references, each to an empty object, and neither is a reference that
    existed before. *)
Theorem read_twice_returns_distinct_objects
  {T : Type} `{FHIRResource T} (w : World T) (i j : string) :
  exists (a b : loc) (w' : World T),
    (a ← FHIRResourceController.read i;
     b ← FHIRResourceController.read j;
     mret (a, b)) w = Some (Normal (a, b), w')
    /\ a <> b
    /\ heap w' !! a = Some emptyObject
    /\ heap w' !! b = Some emptyObject
    /\ heap w !! a = None
    /\ heap w !! b = None.
Proof.
  exists (length (heap w)), (S (length (heap w))),
         (extend (extend w emptyObject) emptyObject).
  split; [| split; [lia | split; [| split; [| split]]]].
  - rewrite (bind_normal _ _ _ _ _ (read_run i w)).
    rewrite (bind_normal _ _ _ _ _ (read_run j (extend w emptyObject))).
    unfold extend; simpl. rewrite length_app; simpl.
    now rewrite Nat.add_1_r.
  - apply extend_lookup_old, extend_lookup.
  - pose proof (extend_lookup (extend w emptyObject) emptyObject) as Hb.
    unfold extend in Hb at 2; simpl in Hb.
    rewrite length_app in Hb; simpl in Hb. now rewrite Nat.add_1_r in Hb.
  - now apply lookup_ge_None.
  - apply lookup_ge_None. lia.
Qed.

(** X6: What [read] returns is rejected when handed back to [create] or to
    [update]: the empty object has no [resourceType]. *)
Theorem read_result_fails_validation
  {T : Type} `{FHIRResource T} (w : World T) (i j : string) :
  (found ← FHIRResourceController.read i; FHIRResourceController.create found) w
    = Some (Throw (Error "Resource type is required"), extend w emptyObject)
  /\ (found ← FHIRResourceController.read i;
      FHIRResourceController.update j found) w
    = Some (Throw (Error "Resource type is required"), extend w emptyObject).
Proof.
  pose proof (validate_then_return_run (extend w emptyObject) (length (heap w))
                emptyObject (extend_lookup w emptyObject)) as Hc.
  rewrite emptyObject_resourceType in Hc. simpl in Hc.
  split; rewrite (bind_normal _ _ _ _ _ (read_run i w)); exact Hc.
Qed.

(** X7: A [read] in between does not change what validation says of an object
    that was there before. *)
Theorem read_keeps_validation_verdict
  {T : Type} `{FHIRResource T} (w : World T) (i : string) (l : loc) (r : T) :
  heap w !! l = Some r ->
  exists c : Completion unit,
    validateResource l w = Some (c, w)
    /\ (FHIRResourceController.read i ;; validateResource l) w
       = Some (c, extend w emptyObject).
Proof.
  intros Hl.
  exists (if truthy (resourceType r) then Normal ()
          else Throw (Error "Resource type is required")).
  split; [now apply validateResource_run |].
  rewrite (bind_normal _ _ _ _ _ (read_run i w)).
  now apply validateResource_extend.
Qed.

Lemma read_keeps_validation_verdict_witness :
  heap (world_of [jane; blank_type]) !! 1 = Some blank_type
  /\ exists c : Completion unit,
       validateResource 1 (world_of [jane; blank_type])
         = Some (c, world_of [jane; blank_type])
       /\ (PatientController.read "p1" ;; validateResource 1)
            (world_of [jane; blank_type])
          = Some (c, world_of [jane; blank_type; Patient.empty]).
Proof.
  split; [reflexivity |].
  exact (read_keeps_validation_verdict
           (world_of [jane; blank_type]) "p1" 1 blank_type eq_refl).
Defined.

(** X8: A patient that [create] has just accepted is not found by
    [searchByName], whatever name is searched for. *)
Theorem searchByName_after_create_finds_nothing
  (w : World Patient.t) (l : loc) (r : Patient.t) (n : string) :
  heap w !! l = Some r ->
  truthy (Patient.resourceType r) = true ->
  (created ← PatientController.create l;
   found ← PatientController.searchByName n;
   mret (created, found)) w
  = Some (Normal (l, []), w).
Proof.
  intros Hl Hrt.
  pose proof (validate_then_return_run w l r Hl) as Hc.
  simpl in Hc. rewrite Hrt in Hc.
  now rewrite (bind_normal (PatientController.create l) _ _ _ _ Hc).
Qed.

Lemma searchByName_after_create_finds_nothing_witness :
  heap (world_of [jane]) !! 0 = Some jane
  /\ truthy (Patient.resourceType jane) = true
  /\ (created ← PatientController.create 0;
      found ← PatientController.searchByName "Smith";
      mret (created, found)) (world_of [jane])
     = Some (Normal (0, []), world_of [jane]).
Proof.
  split; [reflexivity | split; [reflexivity |]].
  exact (searchByName_after_create_finds_nothing
           (world_of [jane]) 0 jane "Smith" eq_refl eq_refl).
Defined.

(** ** Nothing that exists is ever changed *)

Section Frame.
Context {T : Type}.

Lemma keeps_world_ret {A} (a : A) : keeps_world (mret a : M T A).
Proof. intros w c w' Hrun. injection Hrun as _ <-. now split. Qed.

Lemma keeps_world_throw {A} (e : JSError) : keeps_world (throw e : M T A).
Proof. intros w c w' Hrun. injection Hrun as _ <-. now split. Qed.

Lemma keeps_world_deref (l : loc) : keeps_world (deref l : M T T).
Proof.
  intros w c w' Hrun. unfold deref in Hrun.
  destruct (heap w !! l); [| discriminate].
  injection Hrun as _ <-. now split.
Qed.

Lemma keeps_world_alloc (o : T) : keeps_world (alloc o).
Proof.
  intros w c w' Hrun. injection Hrun as _ <-. simpl.
  split; [now apply prefix_app_r | reflexivity].
Qed.

(** The condition passes through sequencing. *)
Lemma keeps_world_bind {A B} (m : M T A) (k : A -> M T B) :
  keeps_world m -> (forall a, keeps_world (k a)) -> keeps_world (m ≫= k).
Proof.
  intros Hm Hk w c w' Hrun. unfold mbind, M_bind, bind in Hrun.
  destruct (m w) as [[[a | e] w1] |] eqn:Hmw; [| | discriminate].
  - destruct (Hm _ _ _ Hmw) as [Hheap Hthis].
    destruct (Hk a _ _ _ Hrun) as [Hheap' Hthis'].
    split; [now transitivity (heap w1) | now rewrite Hthis'].
  - injection Hrun as _ <-. exact (Hm _ _ _ Hmw).
Qed.

Lemma keeps_world_validate_then_return `{FHIRResource T} (l : loc) :
  keeps_world (validateResource l ;; mret l).
Proof.
  apply keeps_world_bind; [| intros _; apply keeps_world_ret].
  apply keeps_world_bind; [apply keeps_world_deref |].
  intros r. destruct (negb (truthy (resourceType r)));
    [apply keeps_world_throw | apply keeps_world_ret].
Qed.

(** What the condition gives a caller who holds a reference. *)
Lemma keeps_world_lookup {A} (m : M T A) w c w' (l : loc) (o : T) :
  keeps_world m -> m w = Some (c, w') ->
  heap w !! l = Some o -> heap w' !! l = Some o.
Proof.
  intros Hm Hrun Hl. destruct (Hm _ _ _ Hrun) as [[more ->] _].
  now apply lookup_app_l_Some.
Qed.
End Frame.

(** X9: No method of the controller changes or removes a resource object
    that exists, and none changes the controller: whatever the method and
    however the call ends, the objects of before are a prefix of the objects
    of after, and the controller's field is what it was. *)
Theorem methods_keep_world
  (l : loc) (i n : string) (params : list (string * string)) :
  keeps_world (PatientController.create l)
  /\ keeps_world (PatientController.read i)
  /\ keeps_world (PatientController.search params)
  /\ keeps_world (PatientController.update i l)
  /\ keeps_world (PatientController.delete i)
  /\ keeps_world (PatientController.searchByName n)
  /\ keeps_world (PatientController.getPatientHistory i).
Proof.
  repeat apply conj.
  - apply keeps_world_validate_then_return.
  - apply keeps_world_alloc.
  - apply (keeps_world_ret (T := Patient.t) []).
  - apply keeps_world_validate_then_return.
  - apply (keeps_world_ret (T := Patient.t) ()).
  - apply (keeps_world_ret (T := Patient.t) []).
  - apply (keeps_world_ret (T := Patient.t) []).
Qed.

(** ** The route handlers *)

Lemma post_Patient_run (req : Request) (w : World Patient.t) (r : Patient.t) :
  heap w !! body req = Some r ->
  post_Patient req w =
    Some (Normal (if truthy (Patient.resourceType r)
                  then mkResponse 201 (Some (JsonResource r))
                  else mkResponse 400
                         (Some (JsonError "Resource type is required"))),
          serving w).
Proof.
  intros Hl. unfold post_Patient.
  rewrite (bind_normal (construct PatientController.new) _ w () (serving w) eq_refl).
  assert (Hl' : heap (serving w) !! body req = Some r) by exact Hl.
  pose proof (validate_then_return_run (serving w) (body req) r Hl') as Hc.
  simpl in Hc. unfold try_catch.
  destruct (truthy (Patient.resourceType r)).
  - rewrite (bind_normal (PatientController.create (body req)) _ _ _ _ Hc).
    unfold json_resource.
    now rewrite (bind_normal _ _ _ _ _ (deref_run _ _ _ Hl')).
  - now rewrite (bind_throw (PatientController.create (body req)) _ _ _ _ Hc).
Qed.

Lemma get_Patient_id_run (req : Request) (w : World Patient.t) :
  get_Patient_id req w =
    Some (Normal (mkResponse 200 (Some (JsonResource Patient.empty))),
          extend (serving w) Patient.empty).
Proof.
  unfold get_Patient_id.
  rewrite (bind_normal (construct PatientController.new) _ w () (serving w) eq_refl).
  unfold try_catch.
  rewrite (bind_normal (PatientController.read (params_id req)) _ _ _ _
             (read_run (params_id req) (serving w))).
  unfold json_resource.
  now rewrite (bind_normal _ _ _ _ _
                 (deref_run _ _ _ (extend_lookup (serving w) Patient.empty))).
Qed.

(** X10: for a request whose body is an object of the [Patient] interface
    ([resourceType] a string or absent), POST /Patient answers 201 with the
    body echoed when [resourceType] is a non-empty string, and 400 with the
    validator's message when it is absent or empty; no resource object is
    added or changed. *)
Theorem post_Patient_responds
  (req : Request) (w : World Patient.t) (r : Patient.t) :
  heap w !! body req = Some r ->
  exists resp : Response Patient.t,
    post_Patient req w = Some (Normal resp, serving w)
    /\ heap (serving w) = heap w
    /\ ((truthy (Patient.resourceType r) = true
         /\ resp = mkResponse 201 (Some (JsonResource r)))
        \/ (truthy (Patient.resourceType r) = false
            /\ resp = mkResponse 400
                        (Some (JsonError "Resource type is required")))).
Proof.
  intros Hl. rewrite (post_Patient_run req w r Hl).
  destruct (truthy (Patient.resourceType r)); eauto 6.
Qed.

Lemma post_Patient_responds_witness :
  heap (world_of [blank_type]) !! body (mkRequest 0 "") = Some blank_type
  /\ exists resp : Response Patient.t,
       post_Patient (mkRequest 0 "") (world_of [blank_type])
         = Some (Normal resp, serving (world_of [blank_type]))
       /\ heap (serving (world_of [blank_type])) = heap (world_of [blank_type])
       /\ ((truthy (Patient.resourceType blank_type) = true
            /\ resp = mkResponse 201 (Some (JsonResource blank_type)))
           \/ (truthy (Patient.resourceType blank_type) = false
               /\ resp = mkResponse 400
                           (Some (JsonError "Resource type is required")))).
Proof.
  split; [reflexivity |].
  exact (post_Patient_responds
           (mkRequest 0 "") (world_of [blank_type]) blank_type eq_refl).
Defined.

(** X11: GET /Patient/:id answers 200 with the empty object for every id and in
    every world: the 404 of its [catch] branch is never sent. *)
Theorem get_Patient_id_always_200 (req : Request) (w : World Patient.t) :
  exists (resp : Response Patient.t) (w' : World Patient.t),
    get_Patient_id req w = Some (Normal resp, w')
    /\ statusCode resp = 200
    /\ sent resp = Some (JsonResource (Patient.mk None None None None None None))
    /\ sent resp <> Some (JsonError "Patient not found").
Proof.
  eexists _, _. split; [apply get_Patient_id_run |].
  repeat split. discriminate.
Qed.

(** X12: for a request whose body is an object, both handlers complete
    normally and have sent a response: neither is left pending and neither
    lets an exception out, so the error-handling middleware is not reached
    from these routes. *)
Theorem handlers_always_respond
  (req : Request) (w : World Patient.t) (r : Patient.t) :
  heap w !! body req = Some r ->
  (exists (resp : Response Patient.t) (w' : World Patient.t),
     post_Patient req w = Some (Normal resp, w') /\ is_Some (sent resp))
  /\ (exists (resp : Response Patient.t) (w' : World Patient.t),
       get_Patient_id req w = Some (Normal resp, w') /\ is_Some (sent resp))
  /\ ~ throws (post_Patient req) w
  /\ ~ throws (get_Patient_id req) w.
Proof.
  intros Hl.
  pose proof (post_Patient_run req w r Hl) as Hp.
  pose proof (get_Patient_id_run req w) as Hg.
  split; [| split; [| split]].
  - eexists _, _. split; [exact Hp |].
    destruct (truthy (Patient.resourceType r)); simpl; eauto.
  - eexists _, _. split; [exact Hg | simpl; eauto].
  - exact (normal_not_throws _ _ _ _ Hp).
  - exact (normal_not_throws _ _ _ _ Hg).
Qed.

Lemma handlers_always_respond_witness :
  heap (world_of [blank_type]) !! body (mkRequest 0 "p1") = Some blank_type
  /\ (exists (resp : Response Patient.t) (w' : World Patient.t),
        post_Patient (mkRequest 0 "p1") (world_of [blank_type])
          = Some (Normal resp, w') /\ is_Some (sent resp))
  /\ (exists (resp : Response Patient.t) (w' : World Patient.t),
        get_Patient_id (mkRequest 0 "p1") (world_of [blank_type])
          = Some (Normal resp, w') /\ is_Some (sent resp))
  /\ ~ throws (post_Patient (mkRequest 0 "p1")) (world_of [blank_type])
  /\ ~ throws (get_Patient_id (mkRequest 0 "p1")) (world_of [blank_type]).
Proof.
  split; [reflexivity |].
  exact (handlers_always_respond
           (mkRequest 0 "p1") (world_of [blank_type]) blank_type eq_refl).
Defined.

(** X13: A patient that POST has answered 201 for cannot be fetched: the GET that
    follows, for any id, answers with the empty object, which is not the
    patient. *)
Theorem post_then_get_returns_empty_object
  (posted fetched : Request) (w : World Patient.t) (r : Patient.t) :
  heap w !! body posted = Some r ->
  truthy (Patient.resourceType r) = true ->
  (created ← post_Patient posted;
   got ← get_Patient_id fetched;
   mret (created, got)) w
  = Some (Normal (mkResponse 201 (Some (JsonResource r)),
                  mkResponse 200 (Some (JsonResource Patient.empty))),
          extend (serving w) Patient.empty)
  /\ r <> Patient.empty.
Proof.
  intros Hl Hrt. split.
  - pose proof (post_Patient_run posted w r Hl) as Hp. rewrite Hrt in Hp.
    rewrite (bind_normal _ _ _ _ _ Hp).
    now rewrite (bind_normal _ _ _ _ _ (get_Patient_id_run fetched (serving w))).
  - intros ->. discriminate Hrt.
Qed.

Lemma post_then_get_returns_empty_object_witness :
  heap (world_of [jane]) !! body (mkRequest 0 "") = Some jane
  /\ truthy (Patient.resourceType jane) = true
  /\ (created ← post_Patient (mkRequest 0 "");
      got ← get_Patient_id (mkRequest 0 "p1");
      mret (created, got)) (world_of [jane])
     = Some (Normal (mkResponse 201 (Some (JsonResource jane)),
                     mkResponse 200 (Some (JsonResource Patient.empty))),
             world_of [jane; Patient.empty])
  /\ jane <> Patient.empty.
Proof.
  split; [reflexivity | split; [reflexivity |]].
  exact (post_then_get_returns_empty_object
           (mkRequest 0 "") (mkRequest 0 "p1") (world_of [jane]) jane
           eq_refl eq_refl).
Defined.
